(** * Organisms: a shallow embedding of [organism.h]

    The header defines a class template [Organism<species_t, can_eat_meat,
    can_eat_plants>] with the member functions [eat] and [breed], and the
    free function templates [encounter] and [encounter_series].  All of them
    are [constexpr] and free of side effects, so each becomes a Rocq
    function.  The two diet flags are template parameters: here they index
    the type [Organism], so that, as in the header, [eat] and [breed] return
    a value of the receiver's own type.  The vitality is a [uint64_t]: a [Z]
    whose arithmetic is reduced modulo [2 ^ 64]. *)

From Stdlib Require Import ZArith Bool List Lia String.
Import ListNotations.

Local Open Scope Z_scope.
Local Open Scope bool_scope.

(** ** [uint64_t] arithmetic *)

Module U64.

Definition modulus : Z := 2 ^ 64.

Definition max_value : Z := modulus - 1.

(** Conversion of a mathematical integer to [uint64_t]. *)
Definition wrap (z : Z) : Z := z mod modulus.

Definition in_range (z : Z) : Prop := 0 <= z < modulus.

Definition add (a b : Z) : Z := wrap (a + b).

Definition sub (a b : Z) : Z := wrap (a - b).

Definition mul (a b : Z) : Z := wrap (a * b).

(** Unsigned division; the header only ever divides by [2]. *)
Definition div (a b : Z) : Z := a / b.

End U64.

(** ** The functions of [<algorithm>] and [<numeric>] the header calls

    They belong to the C++ standard library, not to the header.  [min] and
    [max] are the two-argument overloads ([min] returns its first argument
    unless the second is smaller, [max] its first unless the second is
    larger).  [midpoint] follows the integer branch of libstdc++'s
    [std::midpoint] at type [uint64_t]:
<<
      int k = 1;  U m = a;  U M = b;
      if (a > b) { k = -1; m = b; M = a; }
      return a + k * T(U(M - m) / 2);
>>
    where the [int] [k] is converted to [uint64_t] before the product. *)

Module Std.

Definition min (a b : Z) : Z := if b <? a then b else a.

Definition max (a b : Z) : Z := if a <? b then b else a.

Definition midpoint (a b : Z) : Z :=
  let '(k, m, M) := if a >? b then (-1, b, a) else (1, a, b) in
  U64.add a (U64.mul (U64.wrap k) (U64.div (U64.sub M m) 2)).

(** The value, before reduction modulo [2 ^ 64], of each arithmetic
    operation that [midpoint a b] performs, in evaluation order: the
    difference, its half, the product and the final sum.  An operation
    overflows exactly when its entry is out of range. *)
Definition midpoint_unreduced (a b : Z) : list Z :=
  let '(k, m, M) := if a >? b then (-1, b, a) else (1, a, b) in
  let d := U64.sub M m in
  let h := U64.div d 2 in
  let kh := U64.mul (U64.wrap k) h in
  [M - m; d / 2; U64.wrap k * h; a + kh].

End Std.

(** ** [std::equality_comparable<species_t>]

    The only thing the header asks of a species type: an [==] that is an
    equivalence relation. *)

Class equality_comparable (T : Type) : Type := {
  equal : T -> T -> bool;
  equal_refl : forall x, equal x x = true;
  equal_sym : forall x y, equal x y = equal y x;
  equal_trans : forall x y z, equal x y = true -> equal y z = true -> equal x z = true
}.

#[export] Instance string_equality_comparable : equality_comparable string.
Proof.
  refine {| equal := String.eqb |}.
  - exact String.eqb_refl.
  - exact String.eqb_sym.
  - intros x y z Hxy Hyz.
    apply String.eqb_eq in Hxy. apply String.eqb_eq in Hyz.
    subst. apply String.eqb_refl.
Defined.

#[export] Instance nat_equality_comparable : equality_comparable nat.
Proof.
  refine {| equal := Nat.eqb |}.
  - exact Nat.eqb_refl.
  - exact Nat.eqb_sym.
  - intros x y z Hxy Hyz.
    apply Nat.eqb_eq in Hxy. apply Nat.eqb_eq in Hyz.
    subst. apply Nat.eqb_refl.
Defined.

(** ** The class template [Organism] *)

Record Organism (species_t : Type) (can_eat_meat can_eat_plants : bool) : Type :=
  mkOrganism {
    get_species : species_t;
    get_vitality : Z
  }.

Arguments mkOrganism {species_t} can_eat_meat can_eat_plants _ _.
Arguments get_species {species_t can_eat_meat can_eat_plants} _.
Arguments get_vitality {species_t can_eat_meat can_eat_plants} _.

(** The four aliases at the end of the class. *)
Definition Carnivore (species_t : Type) : Type := Organism species_t true false.
Definition Omnivore (species_t : Type) : Type := Organism species_t true true.
Definition Herbivore (species_t : Type) : Type := Organism species_t false true.
Definition Plant (species_t : Type) : Type := Organism species_t false false.

(** A value the constructor can have built: its vitality is a [uint64_t]. *)
Definition well_formed {species_t m p} (o : Organism species_t m p) : Prop :=
  U64.in_range (get_vitality o).

(** [is_plant] is a static member: it depends on the flags alone. *)
Definition is_plant (can_eat_meat can_eat_plants : bool) : bool :=
  negb can_eat_meat && negb can_eat_plants.

(** Whether a diet [(m, p)] permits eating an organism of diet [(om, op)]:
    the expression that line 40 binds to [this_can_eat] and, with the roles
    exchanged, line 41 to [o_can_eat]. *)
Definition can_eat (m p om op : bool) : bool :=
  if is_plant om op then p else m.

(** The [requires] clause of [encounter]. *)
Definition encounter_requires (o1_eats_m o1_eats_p o2_eats_m o2_eats_p : bool) : bool :=
  o1_eats_m || o1_eats_p || o2_eats_m || o2_eats_p.

Section Organisms.

Context {species_t : Type} `{equality_comparable species_t}.

Definition is_dead {m p} (o : Organism species_t m p) : bool :=
  get_vitality o =? 0.

(** The conditions under which each of the two blocks of [eat] takes one
    of its [return]s, read off lines 40-51; they serve to state the
    properties below, [eat] itself does not use them. *)
Definition eat_branch1 {m p om op}
    (self : Organism species_t m p) (o : Organism species_t om op) : bool :=
  can_eat m p om op
  && (is_plant om op || (get_vitality self >? get_vitality o)).

Definition eat_branch2 {m p om op}
    (self : Organism species_t m p) (o : Organism species_t om op) : bool :=
  can_eat om op m p
  && (is_plant m p
      || (get_vitality o >? get_vitality self)
      || (can_eat m p om op && (get_vitality o =? get_vitality self))).

(** [eat], first block (the [if constexpr (this_can_eat)] of lines 42-49):
    [Some r] when one of its two [return]s is taken, [None] when control
    leaves the block. *)
Definition eat_gain {m p om op}
    (self : Organism species_t m p) (o : Organism species_t om op)
    : option (Organism species_t m p) :=
  let o_is_plant := is_plant om op in
  let this_can_eat := if o_is_plant then p else m in
  if this_can_eat then
    if o_is_plant then
      Some (mkOrganism m p (get_species self)
              (U64.add (get_vitality self) (get_vitality o)))
    else if get_vitality self >? get_vitality o then
      Some (mkOrganism m p (get_species self)
              (U64.add (get_vitality self) (U64.div (get_vitality o) 2)))
    else None
  else None.

(** [eat], the rest (lines 50-55): the receiver dies or is returned as
    it is. *)
Definition eat_loss {m p om op}
    (self : Organism species_t m p) (o : Organism species_t om op)
    : Organism species_t m p :=
  let this_is_plant := is_plant m p in
  let o_is_plant := is_plant om op in
  let this_can_eat := if o_is_plant then p else m in
  let o_can_eat := if this_is_plant then op else om in
  if o_can_eat then
    if this_is_plant
       || (get_vitality o >? get_vitality self)
       || (this_can_eat && (get_vitality o =? get_vitality self))
    then mkOrganism m p (get_species self) 0
    else self
  else self.

Definition eat {m p om op}
    (self : Organism species_t m p) (o : Organism species_t om op)
    : Organism species_t m p :=
  match eat_gain self o with
  | Some r => r
  | None => eat_loss self o
  end.

Definition breed {m p om op}
    (self : Organism species_t m p) (o : Organism species_t om op)
    : Organism species_t m p :=
  mkOrganism m p (get_species self)
    (Std.midpoint (Std.min (get_vitality self) (get_vitality o))
                  (Std.max (get_vitality self) (get_vitality o))).

(** [encounter]: the [requires] clause is the first argument, so the
    function cannot be applied to two plants. *)
Definition encounter {o1_eats_m o1_eats_p o2_eats_m o2_eats_p}
    (req : encounter_requires o1_eats_m o1_eats_p o2_eats_m o2_eats_p = true)
    (organism1 : Organism species_t o1_eats_m o1_eats_p)
    (organism2 : Organism species_t o2_eats_m o2_eats_p)
    : Organism species_t o1_eats_m o1_eats_p
      * Organism species_t o2_eats_m o2_eats_p
      * option (Organism species_t o1_eats_m o1_eats_p) :=
  let predation := (eat organism1 organism2, eat organism2 organism1, None) in
  if is_dead organism1 || is_dead organism2 then
    (organism1, organism2, None)
  else if Bool.eqb o1_eats_m o2_eats_m && Bool.eqb o1_eats_p o2_eats_p then
    if equal (get_species organism1) (get_species organism2) then
      (organism1, organism2, Some (breed organism1 organism2))
    else predation
  else predation.

(** [organism_operators::operator+]. *)
Definition plus {o1_eats_m o1_eats_p o2_eats_m o2_eats_p}
    (req : encounter_requires o1_eats_m o1_eats_p o2_eats_m o2_eats_p = true)
    (o1 : Organism species_t o1_eats_m o1_eats_p)
    (o2 : Organism species_t o2_eats_m o2_eats_p)
    : Organism species_t o1_eats_m o1_eats_p :=
  fst (fst (encounter req o1 o2)).

(** One element of the parameter pack [Args ... args] of
    [encounter_series]: an organism of the protagonist's species type,
    with flags of its own, for which [operator+] (hence [encounter])
    is instantiated against the protagonist's type. *)
Record series_arg (o1_eats_m o1_eats_p : bool) : Type := mkArg {
  arg_eats_m : bool;
  arg_eats_p : bool;
  arg_organism : Organism species_t arg_eats_m arg_eats_p;
  arg_requires : encounter_requires o1_eats_m o1_eats_p arg_eats_m arg_eats_p = true
}.

Arguments mkArg {o1_eats_m o1_eats_p} _ _ _ _.
Arguments arg_eats_m {o1_eats_m o1_eats_p} _.
Arguments arg_eats_p {o1_eats_m o1_eats_p} _.
Arguments arg_organism {o1_eats_m o1_eats_p} _.
Arguments arg_requires {o1_eats_m o1_eats_p} _.

(** The binary left fold [(organism1 + ... + args)]: the pack is consumed
    from its first element, and an empty pack leaves [organism1]. *)
Fixpoint encounter_series {o1_eats_m o1_eats_p}
    (organism1 : Organism species_t o1_eats_m o1_eats_p)
    (args : list (series_arg o1_eats_m o1_eats_p))
    : Organism species_t o1_eats_m o1_eats_p :=
  match args with
  | [] => organism1
  | a :: rest =>
      encounter_series (plus (arg_requires a) organism1 (arg_organism a)) rest
  end.

End Organisms.

Arguments mkArg {species_t o1_eats_m o1_eats_p} _ _ _ _.
Arguments arg_eats_m {species_t o1_eats_m o1_eats_p} _.
Arguments arg_eats_p {species_t o1_eats_m o1_eats_p} _.
Arguments arg_organism {species_t o1_eats_m o1_eats_p} _.
Arguments arg_requires {species_t o1_eats_m o1_eats_p} _.


(** ** Concrete organisms *)

Module Examples.

Definition wolf : Carnivore string := mkOrganism true false "wolf"%string 10.
Definition fox : Carnivore string := mkOrganism true false "fox"%string 4.
Definition bear : Omnivore string := mkOrganism true true "bear"%string 10.
Definition hare : Herbivore string := mkOrganism false true "hare"%string 5.
Definition grass : Plant string := mkOrganism false false "grass"%string 5.

Definition dead_wolf : Carnivore string := mkOrganism true false "wolf"%string 0.
Definition old_wolf : Carnivore string := mkOrganism true false "wolf"%string 4.
Definition lynx : Carnivore string := mkOrganism true false "lynx"%string 10.
Definition young_hare : Herbivore string := mkOrganism false true "hare"%string 3.
Definition deer : Herbivore string := mkOrganism false true "deer"%string 10.

Definition huge_wolf : Carnivore string :=
  mkOrganism true false "wolf"%string U64.max_value.

(** The [requires] clause of [encounter] at the pairs of diets used
    below. *)
Definition carnivores_ok : encounter_requires true false true false = true := eq_refl.
Definition herbivores_ok : encounter_requires false true false true = true := eq_refl.
Definition carnivore_herbivore_ok : encounter_requires true false false true = true := eq_refl.
Definition omnivore_plant_ok : encounter_requires true true false false = true := eq_refl.
Definition carnivore_plant_ok : encounter_requires true false false false = true := eq_refl.
Definition herbivore_carnivore_ok : encounter_requires false true true false = true := eq_refl.

(** A parameter pack for a series led by a carnivore. *)
Definition pack : list (series_arg (species_t := string) true false) :=
  [ @mkArg string true false true false fox eq_refl;
    @mkArg string true false false false grass eq_refl;
    @mkArg string true false false true hare eq_refl ].

(** The same pack with a dead organism in the middle. *)
Definition pack_with_dead : list (series_arg (species_t := string) true false) :=
  [ @mkArg string true false true false fox eq_refl;
    @mkArg string true false true false dead_wolf eq_refl;
    @mkArg string true false false false grass eq_refl;
    @mkArg string true false false true hare eq_refl ].

End Examples.

(** * Properties *)

(** ** Arithmetic *)

Module U64Facts.

Lemma modulus_pos : 0 < U64.modulus.
Proof. reflexivity. Qed.

Lemma wrap_small (z : Z) : U64.in_range z -> U64.wrap z = z.
Proof. intros Hz. apply Z.mod_small. exact Hz. Qed.

Lemma wrap_in_range (z : Z) : U64.in_range (U64.wrap z).
Proof. apply Z.mod_pos_bound. exact modulus_pos. Qed.

Lemma add_exact (a b : Z) :
  0 <= a + b < U64.modulus -> U64.add a b = a + b.
Proof. intros Hab. apply wrap_small. exact Hab. Qed.

Lemma half_bounds (z : Z) : 0 <= z -> 0 <= z / 2 <= z.
Proof.
  intros Hz. split.
  - apply Z.div_pos; lia.
  - apply Z.div_le_upper_bound; lia.
Qed.

Lemma half_sum (a b : Z) : a + (b - a) / 2 = (a + b) / 2.
Proof.
  replace (a + b) with (a * 2 + (b - a)) by lia.
  rewrite Z.div_add_l by lia. reflexivity.
Qed.

End U64Facts.

Module StdFacts.

Lemma min_spec (a b : Z) : Std.min a b = Z.min a b.
Proof. unfold Std.min. destruct (Z.ltb_spec b a); lia. Qed.

Lemma max_spec (a b : Z) : Std.max a b = Z.max a b.
Proof. unfold Std.max. destruct (Z.ltb_spec a b); lia. Qed.

(** With its arguments in order, [midpoint] wraps nowhere. *)
Lemma midpoint_ordered (a b : Z) :
  U64.in_range a -> U64.in_range b -> a <= b ->
  Std.midpoint a b = a + (b - a) / 2.
Proof.
  unfold U64.in_range. intros Ha Hb Hab.
  unfold Std.midpoint.
  assert (Hgt : (a >? b) = false) by (rewrite Z.gtb_ltb; apply Z.ltb_ge; exact Hab).
  rewrite Hgt.
  pose proof (U64Facts.half_bounds (b - a) ltac:(lia)) as Hh.
  unfold U64.add, U64.mul, U64.sub, U64.div.
  rewrite (U64Facts.wrap_small 1) by (unfold U64.in_range; split; [lia | reflexivity]).
  rewrite (U64Facts.wrap_small (b - a)) by (unfold U64.in_range; lia).
  rewrite Z.mul_1_l.
  rewrite (U64Facts.wrap_small ((b - a) / 2)) by (unfold U64.in_range; lia).
  apply U64Facts.wrap_small. unfold U64.in_range. lia.
Qed.

(** In the other order the factor [k] is [2 ^ 64 - 1] and the product
    wraps, by design, to the two's complement of the half difference. *)
Lemma midpoint_reversed (a b : Z) :
  U64.in_range a -> U64.in_range b -> b < a ->
  Std.midpoint a b = a - (a - b) / 2.
Proof.
  unfold U64.in_range. intros Ha Hb Hab.
  unfold Std.midpoint.
  assert (Hgt : (a >? b) = true) by (rewrite Z.gtb_ltb; apply Z.ltb_lt; exact Hab).
  rewrite Hgt.
  pose proof (U64Facts.half_bounds (a - b) ltac:(lia)) as Hh.
  unfold U64.add, U64.mul, U64.sub, U64.div.
  rewrite (U64Facts.wrap_small (a - b)) by (unfold U64.in_range; lia).
  unfold U64.wrap.
  rewrite Zplus_mod_idemp_r.
  assert (Hk : (-1) mod U64.modulus = U64.modulus - 1) by reflexivity.
  rewrite Hk.
  replace (a + (U64.modulus - 1) * ((a - b) / 2))
    with (a - (a - b) / 2 + ((a - b) / 2) * U64.modulus) by lia.
  rewrite Z_mod_plus_full.
  apply Z.mod_small. lia.
Qed.

Lemma midpoint_ordered_unreduced (a b : Z) :
  U64.in_range a -> U64.in_range b -> a <= b ->
  Forall U64.in_range (Std.midpoint_unreduced a b).
Proof.
  unfold U64.in_range. intros Ha Hb Hab.
  unfold Std.midpoint_unreduced.
  assert (Hgt : (a >? b) = false) by (rewrite Z.gtb_ltb; apply Z.ltb_ge; exact Hab).
  rewrite Hgt.
  pose proof (U64Facts.half_bounds (b - a) ltac:(lia)) as Hh.
  unfold U64.mul, U64.sub, U64.div.
  rewrite (U64Facts.wrap_small 1) by (unfold U64.in_range; split; [lia | reflexivity]).
  rewrite (U64Facts.wrap_small (b - a)) by (unfold U64.in_range; lia).
  rewrite Z.mul_1_l.
  rewrite (U64Facts.wrap_small ((b - a) / 2)) by (unfold U64.in_range; lia).
  repeat constructor; lia.
Qed.

End StdFacts.

(** ** The member functions and [encounter] *)

Section OrganismFacts.

Context {species_t : Type} `{equality_comparable species_t}.

Lemma is_dead_true {m p} (o : Organism species_t m p) :
  is_dead o = true <-> get_vitality o = 0.
Proof. unfold is_dead. apply Z.eqb_eq. Qed.

Lemma is_dead_false {m p} (o : Organism species_t m p) :
  is_dead o = false <-> get_vitality o <> 0.
Proof. unfold is_dead. apply Z.eqb_neq. Qed.

Lemma eat_gain_species {m p om op}
    (self : Organism species_t m p) (o : Organism species_t om op) r :
  eat_gain self o = Some r -> get_species r = get_species self.
Proof.
  unfold eat_gain.
  destruct (if is_plant om op then p else m); [| discriminate].
  destruct (is_plant om op).
  - intros [= <-]. reflexivity.
  - destruct (get_vitality self >? get_vitality o); [| discriminate].
    intros [= <-]. reflexivity.
Qed.

Lemma eat_loss_species {m p om op}
    (self : Organism species_t m p) (o : Organism species_t om op) :
  get_species (eat_loss self o) = get_species self.
Proof.
  unfold eat_loss.
  destruct (if is_plant m p then op else om); [| reflexivity].
  match goal with |- context [if ?c then _ else _] => destruct c end; reflexivity.
Qed.

Lemma eat_species {m p om op}
    (self : Organism species_t m p) (o : Organism species_t om op) :
  get_species (eat self o) = get_species self.
Proof.
  unfold eat. destruct (eat_gain self o) as [r |] eqn:Hgain.
  - exact (eat_gain_species self o r Hgain).
  - apply eat_loss_species.
Qed.

(** [eat_gain] returns exactly when [eat_branch1] holds. *)
Lemma eat_gain_none {m p om op}
    (self : Organism species_t m p) (o : Organism species_t om op) :
  eat_gain self o = None <-> eat_branch1 self o = false.
Proof.
  unfold eat_gain, eat_branch1, can_eat.
  destruct (if is_plant om op then p else m); simpl.
  - destruct (is_plant om op); simpl.
    + split; discriminate.
    + destruct (get_vitality self >? get_vitality o); split;
        (discriminate || reflexivity).
  - split; reflexivity.
Qed.

(** [eat_loss] returns the receiver itself unless [eat_branch2] holds. *)
Lemma eat_loss_unchanged {m p om op}
    (self : Organism species_t m p) (o : Organism species_t om op) :
  eat_branch2 self o = false -> eat_loss self o = self.
Proof.
  unfold eat_loss, eat_branch2, can_eat.
  destruct (if is_plant m p then op else om); simpl.
  - intros ->. reflexivity.
  - reflexivity.
Qed.

Lemma eat_no_branch {m p om op}
    (self : Organism species_t m p) (o : Organism species_t om op) :
  eat_branch1 self o = false -> eat_branch2 self o = false ->
  eat self o = self.
Proof.
  intros H1 H2. unfold eat.
  apply eat_gain_none in H1. rewrite H1.
  apply eat_loss_unchanged. exact H2.
Qed.

(** The result of [encounter] when both organisms are alive. *)
Lemma encounter_alive {m1 p1 m2 p2}
    (req : encounter_requires m1 p1 m2 p2 = true)
    (o1 : Organism species_t m1 p1) (o2 : Organism species_t m2 p2) :
  get_vitality o1 <> 0 -> get_vitality o2 <> 0 ->
  encounter req o1 o2 =
    if Bool.eqb m1 m2 && Bool.eqb p1 p2
       && equal (get_species o1) (get_species o2)
    then (o1, o2, Some (breed o1 o2))
    else (eat o1 o2, eat o2 o1, None).
Proof.
  intros Hv1 Hv2. unfold encounter.
  apply is_dead_false in Hv1. apply is_dead_false in Hv2.
  rewrite Hv1, Hv2. simpl.
  destruct (Bool.eqb m1 m2 && Bool.eqb p1 p2); simpl; [| reflexivity].
  destruct (equal (get_species o1) (get_species o2)); reflexivity.
Qed.

Lemma encounter_not_alive {m1 p1 m2 p2}
    (req : encounter_requires m1 p1 m2 p2 = true)
    (o1 : Organism species_t m1 p1) (o2 : Organism species_t m2 p2) :
  is_dead o1 || is_dead o2 = true ->
  encounter req o1 o2 = (o1, o2, None).
Proof. intros Hd. unfold encounter. rewrite Hd. reflexivity. Qed.

Lemma breed_vitality {m p om op}
    (self : Organism species_t m p) (o : Organism species_t om op) :
  well_formed self -> well_formed o ->
  get_vitality (breed self o)
  = Z.min (get_vitality self) (get_vitality o)
    + (Z.max (get_vitality self) (get_vitality o)
       - Z.min (get_vitality self) (get_vitality o)) / 2.
Proof.
  unfold well_formed, U64.in_range. intros Hs Ho. simpl.
  rewrite StdFacts.min_spec, StdFacts.max_spec.
  apply StdFacts.midpoint_ordered; unfold U64.in_range; lia.
Qed.

Lemma breed_unreduced {m p om op}
    (self : Organism species_t m p) (o : Organism species_t om op) :
  well_formed self -> well_formed o ->
  Forall U64.in_range
    (Std.midpoint_unreduced (Std.min (get_vitality self) (get_vitality o))
                            (Std.max (get_vitality self) (get_vitality o))).
Proof.
  unfold well_formed, U64.in_range. intros Hs Ho.
  rewrite StdFacts.min_spec, StdFacts.max_spec.
  apply StdFacts.midpoint_ordered_unreduced; unfold U64.in_range; lia.
Qed.

Lemma plus_species {m1 p1 m2 p2}
    (req : encounter_requires m1 p1 m2 p2 = true)
    (o1 : Organism species_t m1 p1) (o2 : Organism species_t m2 p2) :
  get_species (plus req o1 o2) = get_species o1.
Proof.
  unfold plus, encounter.
  destruct (is_dead o1 || is_dead o2); [reflexivity |].
  destruct (Bool.eqb m1 m2 && Bool.eqb p1 p2); simpl; [| apply eat_species].
  destruct (equal (get_species o1) (get_species o2)); simpl;
    [reflexivity | apply eat_species].
Qed.

(** The fold expression, seen from its last operand:
    [(organism1 + ... + args) + x]. *)
Lemma encounter_series_snoc {m1 p1}
    (organism1 : Organism species_t m1 p1)
    (args : list (series_arg m1 p1)) (x : series_arg m1 p1) :
  encounter_series organism1 (args ++ [x])
  = plus (arg_requires x) (encounter_series organism1 args) (arg_organism x).
Proof.
  revert organism1. induction args as [| a rest IH]; intros organism1.
  - reflexivity.
  - simpl. apply IH.
Qed.

Lemma encounter_series_species {m1 p1}
    (organism1 : Organism species_t m1 p1) (args : list (series_arg m1 p1)) :
  get_species (encounter_series organism1 args) = get_species organism1.
Proof.
  revert organism1. induction args as [| a rest IH]; intros organism1.
  - reflexivity.
  - simpl. rewrite IH. apply plus_species.
Qed.

End OrganismFacts.

(** ** The claims of the specification *)

Section Claims.

Context {species_t : Type} `{equality_comparable species_t}.

(** C1 (as amended).  Two organisms with identical diet flags and equal
    species.  If both are alive (nonzero vitality), [encounter] returns
    the two originals unchanged together with the offspring
    [o1.breed(o2)]; if one or both vitalities are zero, it returns the
    two originals unchanged and no offspring. *)
Theorem encounter_same_kind_breeds {m1 p1 m2 p2}
    (req : encounter_requires m1 p1 m2 p2 = true)
    (o1 : Organism species_t m1 p1) (o2 : Organism species_t m2 p2) :
  m1 = m2 -> p1 = p2 ->
  equal (get_species o1) (get_species o2) = true ->
  (get_vitality o1 <> 0 -> get_vitality o2 <> 0 ->
   encounter req o1 o2 = (o1, o2, Some (breed o1 o2)))
  /\ (get_vitality o1 = 0 \/ get_vitality o2 = 0 ->
      encounter req o1 o2 = (o1, o2, None)).
Proof.
  intros Hm Hp Hs. split.
  - intros Hv1 Hv2.
    rewrite (encounter_alive req o1 o2 Hv1 Hv2).
    subst m2 p2. rewrite !Bool.eqb_reflx, Hs. reflexivity.
  - intros Hdead. apply encounter_not_alive.
    apply Bool.orb_true_iff.
    destruct Hdead as [Hd | Hd]; [left | right]; apply is_dead_true; exact Hd.
Qed.

(** C2.  Two organisms of different species, each of whose diets permits
    eating the other's kind, with equal nonzero vitality: [encounter]
    returns both with vitality 0 and no offspring. *)
Theorem encounter_mutual_predators_tie {m1 p1 m2 p2}
    (req : encounter_requires m1 p1 m2 p2 = true)
    (o1 : Organism species_t m1 p1) (o2 : Organism species_t m2 p2) :
  can_eat m1 p1 m2 p2 = true -> can_eat m2 p2 m1 p1 = true ->
  equal (get_species o1) (get_species o2) = false ->
  get_vitality o1 = get_vitality o2 ->
  get_vitality o1 <> 0 ->
  encounter req o1 o2
  = (mkOrganism m1 p1 (get_species o1) 0,
     mkOrganism m2 p2 (get_species o2) 0,
     None).
Proof.
  intros He1 He2 Hs Hv Hv1.
  assert (Hv2 : get_vitality o2 <> 0) by (rewrite <- Hv; exact Hv1).
  rewrite (encounter_alive req o1 o2 Hv1 Hv2).
  rewrite Hs, Bool.andb_false_r.
  unfold eat, eat_gain, eat_loss, can_eat in *.
  rewrite Hv.
  assert (Hgt : (get_vitality o2 >? get_vitality o2) = false)
    by (rewrite Z.gtb_ltb; apply Z.ltb_irrefl).
  rewrite Hgt, Z.eqb_refl.
  clear req. destruct m1, p1, m2, p2; simpl in *;
    (discriminate || reflexivity).
Qed.

(** C3.  A receiver whose diet permits eating plants eats a plant: the
    result has the receiver's species and the sum of the two vitalities,
    whatever the two vitalities are.  The sum is the header's [uint64_t]
    addition; it is the sum of the integers whenever that fits. *)
Theorem eat_plant_absorbs {m p om op}
    (self : Organism species_t m p) (o : Organism species_t om op) :
  p = true -> is_plant om op = true ->
  eat self o
  = mkOrganism m p (get_species self)
      (U64.add (get_vitality self) (get_vitality o))
  /\ get_species (eat self o) = get_species self
  /\ get_vitality (eat self o) = U64.add (get_vitality self) (get_vitality o)
  /\ (U64.in_range (get_vitality self + get_vitality o) ->
      get_vitality (eat self o) = get_vitality self + get_vitality o).
Proof.
  intros Hp Hplant. subst p.
  assert (Heat : eat self o
                 = mkOrganism m true (get_species self)
                     (U64.add (get_vitality self) (get_vitality o))).
  { unfold eat, eat_gain. rewrite Hplant. reflexivity. }
  rewrite Heat. simpl. repeat split.
  intros Hfit. apply U64Facts.add_exact. exact Hfit.
Qed.

(** C4.  A receiver whose diet permits eating the kind of [o], which is
    not a plant.  If the receiver's vitality is strictly greater, the
    result has the receiver's species and its vitality plus half of
    [o]'s, rounded down ([uint64_t] addition, the integer sum whenever
    that fits).  Otherwise the first block does not return, and the
    result is that of the rest of the function: the receiver dies if
    [o] can eat meat and is returned unchanged if not. *)
Theorem eat_animal {m p om op}
    (self : Organism species_t m p) (o : Organism species_t om op) :
  can_eat m p om op = true -> is_plant om op = false ->
  (get_vitality self > get_vitality o ->
     eat self o
     = mkOrganism m p (get_species self)
         (U64.add (get_vitality self) (get_vitality o / 2))
     /\ (U64.in_range (get_vitality self + get_vitality o / 2) ->
         get_vitality (eat self o)
         = get_vitality self + get_vitality o / 2))
  /\ (get_vitality self <= get_vitality o ->
        eat_gain self o = None
        /\ eat self o = eat_loss self o
        /\ eat self o
           = if om then mkOrganism m p (get_species self) 0 else self).
Proof.
  intros Hcan Hplant. unfold can_eat in Hcan. rewrite Hplant in Hcan.
  subst m. split.
  - intros Hgt.
    assert (Heat : eat self o
                   = mkOrganism true p (get_species self)
                       (U64.add (get_vitality self) (get_vitality o / 2))).
    { unfold eat, eat_gain. rewrite Hplant.
      destruct (Z.gtb_spec (get_vitality self) (get_vitality o)); [| lia].
      reflexivity. }
    rewrite Heat. split; [reflexivity |].
    intros Hfit. simpl. apply U64Facts.add_exact. exact Hfit.
  - intros Hle.
    assert (Hgain : eat_gain self o = None).
    { unfold eat_gain. rewrite Hplant.
      destruct (Z.gtb_spec (get_vitality self) (get_vitality o)); [lia |].
      reflexivity. }
    assert (Heat : eat self o = eat_loss self o).
    { unfold eat. rewrite Hgain. reflexivity. }
    split; [exact Hgain |]. split; [exact Heat |].
    rewrite Heat. unfold eat_loss. rewrite Hplant. simpl.
    destruct om; [| reflexivity].
    destruct (Z.gtb_spec (get_vitality o) (get_vitality self)); [reflexivity |].
    destruct (Z.eqb_spec (get_vitality o) (get_vitality self)); [reflexivity | lia].
Qed.

(** C5.  If either organism is dead (vitality 0), [encounter] returns the
    two organisms unchanged and no offspring, whatever the diets, the
    species and the other vitality. *)
Theorem encounter_dead {m1 p1 m2 p2}
    (req : encounter_requires m1 p1 m2 p2 = true)
    (o1 : Organism species_t m1 p1) (o2 : Organism species_t m2 p2) :
  get_vitality o1 = 0 \/ get_vitality o2 = 0 ->
  encounter req o1 o2 = (o1, o2, None).
Proof.
  intros Hdead. apply encounter_not_alive.
  apply Bool.orb_true_iff.
  destruct Hdead as [Hd | Hd]; [left | right]; apply is_dead_true; exact Hd.
Qed.

(** C6 (as amended).  When neither block of [eat] takes a [return], on
    either side, each side's [eat] returns its receiver unchanged and
    [encounter] returns both organisms unchanged; there is no offspring,
    unless both are alive with identical diet flags and equal species,
    the case in which [encounter] breeds and the offspring is
    [o1.breed(o2)]. *)
Theorem encounter_no_branch {m1 p1 m2 p2}
    (req : encounter_requires m1 p1 m2 p2 = true)
    (o1 : Organism species_t m1 p1) (o2 : Organism species_t m2 p2) :
  eat_branch1 o1 o2 = false -> eat_branch2 o1 o2 = false ->
  eat_branch1 o2 o1 = false -> eat_branch2 o2 o1 = false ->
  eat o1 o2 = o1
  /\ eat o2 o1 = o2
  /\ encounter req o1 o2
     = (o1, o2,
        if negb (is_dead o1 || is_dead o2)
           && (Bool.eqb m1 m2 && Bool.eqb p1 p2)
           && equal (get_species o1) (get_species o2)
        then Some (breed o1 o2)
        else None).
Proof.
  intros H11 H12 H21 H22.
  pose proof (eat_no_branch o1 o2 H11 H12) as He1.
  pose proof (eat_no_branch o2 o1 H21 H22) as He2.
  split; [exact He1 |]. split; [exact He2 |].
  unfold encounter. rewrite He1, He2.
  destruct (is_dead o1 || is_dead o2); simpl; [reflexivity |].
  destruct (Bool.eqb m1 m2 && Bool.eqb p1 p2); simpl; [| reflexivity].
  destruct (equal (get_species o1) (get_species o2)); reflexivity.
Qed.

(** C7.  [breed] returns an organism of the receiver's species whose
    vitality is [floor ((min + max) / 2)] of the two vitalities, a value
    between the smaller and the larger one; no arithmetic operation of
    the computation leaves the [uint64_t] range, for all [uint64_t]
    vitalities and whatever the species and diets. *)
Theorem breed_midpoint {m p om op}
    (self : Organism species_t m p) (o : Organism species_t om op) :
  well_formed self -> well_formed o ->
  let lo := Z.min (get_vitality self) (get_vitality o) in
  let hi := Z.max (get_vitality self) (get_vitality o) in
  get_species (breed self o) = get_species self
  /\ get_vitality (breed self o) = (lo + hi) / 2
  /\ lo <= get_vitality (breed self o) <= hi
  /\ Forall U64.in_range
       (Std.midpoint_unreduced (Std.min (get_vitality self) (get_vitality o))
                               (Std.max (get_vitality self) (get_vitality o))).
Proof.
  intros Hs Ho lo hi.
  pose proof (breed_vitality self o Hs Ho) as Hv. fold lo hi in Hv.
  assert (Hlohi : 0 <= hi - lo) by (unfold lo, hi; lia).
  pose proof (U64Facts.half_bounds (hi - lo) Hlohi) as Hh.
  split; [reflexivity |].
  split; [rewrite Hv; apply U64Facts.half_sum |].
  split; [rewrite Hv; lia |].
  apply breed_unreduced; assumption.
Qed.

(** C8.  [encounter_series] is the left fold of its arguments, in order,
    under "replace the running organism [p] by the first component of
    [encounter(p, x)]": the resolved [x] and the offspring of each step
    are dropped.  With no further argument the protagonist is returned
    as it is. *)
Theorem encounter_series_fold {m1 p1}
    (protagonist : Organism species_t m1 p1)
    (others : list (series_arg m1 p1)) :
  encounter_series protagonist others
  = fold_left
      (fun p x => fst (fst (encounter (arg_requires x) p (arg_organism x))))
      others protagonist
  /\ encounter_series protagonist [] = protagonist.
Proof.
  split; [| reflexivity].
  revert protagonist. induction others as [| x rest IH]; intros protagonist.
  - reflexivity.
  - simpl. rewrite IH. reflexivity.
Qed.

(** C10.  Species are preserved: [eat] and [breed] return an organism of
    the receiver's species, for any two organisms ([breed] compares no
    species), and the first and second components of [encounter] carry
    the species of its first and second argument. *)
Theorem species_preserved {m1 p1 m2 p2}
    (o1 : Organism species_t m1 p1) (o2 : Organism species_t m2 p2) :
  get_species (eat o1 o2) = get_species o1
  /\ get_species (breed o1 o2) = get_species o1
  /\ forall req : encounter_requires m1 p1 m2 p2 = true,
       get_species (fst (fst (encounter req o1 o2))) = get_species o1
       /\ get_species (snd (fst (encounter req o1 o2))) = get_species o2.
Proof.
  split; [apply eat_species |]. split; [reflexivity |].
  intros req. unfold encounter.
  destruct (is_dead o1 || is_dead o2); [split; reflexivity |].
  destruct (Bool.eqb m1 m2 && Bool.eqb p1 p2); simpl.
  - destruct (equal (get_species o1) (get_species o2)); simpl;
      split; (reflexivity || apply eat_species).
  - split; apply eat_species.
Qed.

End Claims.


(** ** The claims at concrete organisms *)

Module Witnesses.

Import Examples.

(** C1, as written in the specification, fails on a dead participant:
    a dead wolf meets a wolf, and there is no offspring. *)
Lemma encounter_same_kind_dead_no_offspring :
  equal (get_species dead_wolf) (get_species wolf) = true
  /\ get_vitality dead_wolf = 0
  /\ encounter carnivores_ok dead_wolf wolf = (dead_wolf, wolf, None)
  /\ encounter carnivores_ok dead_wolf wolf
     <> (dead_wolf, wolf, Some (breed dead_wolf wolf)).
Proof.
  split; [reflexivity |]. split; [reflexivity |]. split; [reflexivity |].
  intros Heq. vm_compute in Heq. discriminate Heq.
Qed.

Lemma encounter_same_kind_breeds_witness :
  (equal (get_species wolf) (get_species old_wolf) = true
   /\ get_vitality wolf <> 0 /\ get_vitality old_wolf <> 0
   /\ get_vitality dead_wolf = 0)
  /\ encounter carnivores_ok wolf old_wolf
     = (wolf, old_wolf, Some (breed wolf old_wolf))
  /\ encounter carnivores_ok wolf dead_wolf = (wolf, dead_wolf, None).
Proof.
  split.
  - split; [reflexivity |]. split; [discriminate |].
    split; [discriminate | reflexivity].
  - assert (Hs : equal (get_species wolf) (get_species old_wolf) = true)
      by reflexivity.
    assert (Hs' : equal (get_species wolf) (get_species dead_wolf) = true)
      by reflexivity.
    split.
    + destruct (encounter_same_kind_breeds carnivores_ok wolf old_wolf
                  eq_refl eq_refl Hs) as [Halive _].
      apply Halive; discriminate.
    + destruct (encounter_same_kind_breeds carnivores_ok wolf dead_wolf
                  eq_refl eq_refl Hs') as [_ Hdead].
      apply Hdead. right. reflexivity.
Defined.

Lemma encounter_mutual_predators_tie_witness :
  (equal (get_species wolf) (get_species lynx) = false
   /\ get_vitality wolf = get_vitality lynx)
  /\ encounter carnivores_ok wolf lynx
     = (mkOrganism true false "wolf"%string 0,
        mkOrganism true false "lynx"%string 0,
        None).
Proof.
  split.
  - split; reflexivity.
  - apply (encounter_mutual_predators_tie carnivores_ok wolf lynx);
      (reflexivity || discriminate).
Defined.

Lemma eat_plant_absorbs_witness :
  is_plant false false = true
  /\ get_vitality (eat bear grass) = 15.
Proof.
  split; [reflexivity |].
  destruct (eat_plant_absorbs bear grass eq_refl eq_refl)
    as [_ [_ [_ Hexact]]].
  apply Hexact. unfold U64.in_range. split; [discriminate | reflexivity].
Defined.

Lemma eat_animal_witness :
  can_eat true false true false = true
  /\ eat wolf fox = mkOrganism true false "wolf"%string 12
  /\ eat fox wolf = mkOrganism true false "fox"%string 0.
Proof.
  split; [reflexivity |]. split.
  - destruct (eat_animal wolf fox eq_refl eq_refl) as [Hgt _].
    destruct (Hgt eq_refl) as [Heat _]. exact Heat.
  - destruct (eat_animal fox wolf eq_refl eq_refl) as [_ Hle].
    destruct (Hle ltac:(discriminate)) as [_ [_ Heat]]. exact Heat.
Defined.

Lemma encounter_dead_witness :
  get_vitality dead_wolf = 0
  /\ encounter carnivore_herbivore_ok dead_wolf hare = (dead_wolf, hare, None).
Proof.
  split; [reflexivity |].
  apply (encounter_dead carnivore_herbivore_ok dead_wolf hare).
  left. reflexivity.
Defined.

(** C6, as written in the specification, fails on a pair that breeds:
    no block of [eat] returns for two hares, yet there is an offspring. *)
Lemma encounter_no_branch_offspring :
  eat_branch1 young_hare hare = false
  /\ eat_branch2 young_hare hare = false
  /\ eat_branch1 hare young_hare = false
  /\ eat_branch2 hare young_hare = false
  /\ encounter herbivores_ok young_hare hare
     = (young_hare, hare, Some (mkOrganism false true "hare"%string 4))
  /\ encounter herbivores_ok young_hare hare <> (young_hare, hare, None).
Proof.
  repeat (split; [reflexivity |]).
  intros Heq. vm_compute in Heq. discriminate Heq.
Qed.

(** The example of the specification: a carnivore and a herbivore of
    different species and equal vitality. *)
Lemma encounter_no_branch_witness :
  (eat_branch1 wolf deer = false /\ eat_branch2 wolf deer = false
   /\ eat_branch1 deer wolf = false /\ eat_branch2 deer wolf = false)
  /\ encounter carnivore_herbivore_ok wolf deer = (wolf, deer, None).
Proof.
  split.
  - repeat split.
  - destruct (encounter_no_branch carnivore_herbivore_ok wolf deer
                eq_refl eq_refl eq_refl eq_refl) as [_ [_ Henc]].
    exact Henc.
Defined.

Lemma breed_midpoint_witness :
  (well_formed huge_wolf /\ well_formed wolf)
  /\ get_vitality (breed huge_wolf wolf) = (10 + U64.max_value) / 2.
Proof.
  assert (Hh : well_formed huge_wolf)
    by (unfold well_formed, U64.in_range; split; [discriminate | reflexivity]).
  assert (Hw : well_formed wolf)
    by (unfold well_formed, U64.in_range; split; [discriminate | reflexivity]).
  split; [split; assumption |].
  destruct (breed_midpoint huge_wolf wolf Hh Hw) as [_ [Hv _]].
  exact Hv.
Defined.

Lemma species_preserved_witness :
  get_species (fst (fst (encounter carnivores_ok wolf fox))) = "wolf"%string
  /\ get_species (snd (fst (encounter carnivores_ok wolf fox))) = "fox"%string.
Proof.
  destruct (species_preserved wolf fox) as [_ [_ Henc]].
  exact (Henc carnivores_ok).
Defined.



End Witnesses.

(** ** The examples of the specification, evaluated *)

Module Evaluated.

Import Examples.

Example omnivore_eats_plant : get_vitality (eat bear grass) = 15.
Proof. reflexivity. Qed.

Example carnivore_eats_weaker : get_vitality (eat wolf fox) = 12.
Proof. reflexivity. Qed.

Example breed_10_4 : get_vitality (breed wolf fox) = 7.
Proof. reflexivity. Qed.

Example tie_carnivore_herbivore :
  encounter carnivore_herbivore_ok (mkOrganism true false "wolf"%string 5) hare
  = (mkOrganism true false "wolf"%string 5, hare, None).
Proof. reflexivity. Qed.

Example omnivore_meets_plant :
  encounter omnivore_plant_ok bear grass
  = (mkOrganism true true "bear"%string 15,
     mkOrganism false false "grass"%string 0,
     None).
Proof. reflexivity. Qed.

(** The wolf eats the fox (10 + 2), ignores the grass, eats the hare
    (12 + 2). *)
Example series_of_three : get_vitality (encounter_series wolf pack) = 14.
Proof. reflexivity. Qed.

(** Once dead, the protagonist stays dead through the rest of a series. *)
Example series_after_death :
  get_vitality (encounter_series fox (mkArg true false wolf carnivores_ok :: pack)) = 0.
Proof. reflexivity. Qed.

End Evaluated.


(** * Further properties of the header *)

(** ** [eat] and [breed] *)

Section MemberFacts.

Context {species_t : Type}.

Lemma is_plant_flags (m p : bool) :
  is_plant m p = true <-> m = false /\ p = false.
Proof.
  destruct m, p; simpl; split;
    try discriminate; try (intros [Hm Hp]; discriminate); auto.
Qed.

(** X2.  A plant never gains: its [eat] returns it dead when the other
    organism can eat plants and unchanged when it cannot, whatever the two
    vitalities. *)
Theorem plant_eat {m p om op}
    (self : Organism species_t m p) (o : Organism species_t om op) :
  is_plant m p = true ->
  eat_gain self o = None
  /\ eat self o = if op then mkOrganism m p (get_species self) 0 else self.
Proof.
  intros Hplant. apply is_plant_flags in Hplant. destruct Hplant as [-> ->].
  assert (Hgain : eat_gain self o = None).
  { unfold eat_gain. destruct (is_plant om op); reflexivity. }
  split; [exact Hgain |].
  unfold eat. rewrite Hgain. unfold eat_loss. simpl.
  destruct op; reflexivity.
Qed.

(** X3.  An organism that eats plants but no meat never gains from an
    animal: against a non-plant its [eat] returns it dead when the other
    eats meat and is strictly stronger, and unchanged otherwise, a tie
    included. *)
Theorem grazer_eat_animal {m p om op}
    (self : Organism species_t m p) (o : Organism species_t om op) :
  m = false -> p = true -> is_plant om op = false ->
  eat self o
  = if om && (get_vitality o >? get_vitality self)
    then mkOrganism m p (get_species self) 0
    else self.
Proof.
  intros -> -> Hplant.
  unfold eat, eat_gain, eat_loss. rewrite Hplant. simpl.
  destruct om; simpl; [| reflexivity].
  destruct (get_vitality o >? get_vitality self); reflexivity.
Qed.

(** X4.  The two sides of an encounter agree: whenever [eat] returns a
    gain for the receiver, the mirror call returns the other organism
    dead. *)
Theorem eat_gain_kills_other {m p om op}
    (self : Organism species_t m p) (o : Organism species_t om op) r :
  eat_gain self o = Some r ->
  eat o self = mkOrganism om op (get_species o) 0.
Proof.
  unfold eat, eat_gain, eat_loss, is_plant.
  destruct m, p, om, op; simpl; try discriminate; try reflexivity;
    destruct (Z.gtb_spec (get_vitality self) (get_vitality o));
    try discriminate; intros _;
    destruct (Z.gtb_spec (get_vitality o) (get_vitality self));
    try lia; reflexivity.
Qed.

(** X5.  Without overflow [eat] leaves no wounded organism: the result is
    dead or has at least the receiver's vitality. *)
Theorem eat_dead_or_not_weaker {m p om op}
    (self : Organism species_t m p) (o : Organism species_t om op) :
  well_formed self -> well_formed o ->
  get_vitality self + get_vitality o < U64.modulus ->
  get_vitality (eat self o) = 0
  \/ get_vitality self <= get_vitality (eat self o).
Proof.
  unfold well_formed, U64.in_range. intros Hs Ho Hfit.
  pose proof (U64Facts.half_bounds (get_vitality o) ltac:(lia)) as Hh.
  unfold eat. destruct (eat_gain self o) as [r |] eqn:Hgain.
  - right. revert Hgain. unfold eat_gain.
    destruct (if is_plant om op then p else m); [| discriminate].
    destruct (is_plant om op).
    + intros [= <-]. simpl. rewrite U64Facts.add_exact; lia.
    + destruct (get_vitality self >? get_vitality o); [| discriminate].
      intros [= <-]. simpl. unfold U64.div.
      rewrite U64Facts.add_exact; lia.
  - unfold eat_loss.
    destruct (if is_plant m p then op else om); [| right; lia].
    match goal with |- context [if ?c then _ else _] => destruct c end;
      [left; reflexivity | right; lia].
Qed.

(** X6.  The vitality of the offspring does not depend on which parent
    is the receiver, and two well-formed parents of equal vitality breed
    an offspring of that vitality. *)
Theorem breed_vitality_symmetric {m p om op}
    (self : Organism species_t m p) (o : Organism species_t om op) :
  get_vitality (breed self o) = get_vitality (breed o self)
  /\ (well_formed self -> get_vitality o = get_vitality self ->
      get_vitality (breed self o) = get_vitality self).
Proof.
  split.
  - simpl. rewrite !StdFacts.min_spec, !StdFacts.max_spec.
    rewrite (Z.min_comm (get_vitality o)), (Z.max_comm (get_vitality o)).
    reflexivity.
  - intros Hs Hv.
    assert (Ho : well_formed o) by (unfold well_formed; rewrite Hv; exact Hs).
    rewrite (breed_vitality self o Hs Ho), Hv.
    rewrite Z.min_id, Z.max_id, Z.sub_diag, Zdiv_0_l. apply Z.add_0_r.
Qed.

End MemberFacts.

(** ** [encounter] *)

Section EncounterFacts.

Context {species_t : Type} `{equality_comparable species_t}.

Lemma encounter_requires_sym (m1 p1 m2 p2 : bool) :
  encounter_requires m1 p1 m2 p2 = encounter_requires m2 p2 m1 p1.
Proof. destruct m1, p1, m2, p2; reflexivity. Qed.

Lemma flag_eqb_sym (a b : bool) : Bool.eqb a b = Bool.eqb b a.
Proof. destruct a, b; reflexivity. Qed.

(** X8.  Grazing: an organism that can eat plants meets a plant, both
    alive.  The eater absorbs the whole vitality of the plant ([uint64_t]
    addition), the plant dies, and there is no offspring, whatever the
    species and the two vitalities. *)
Theorem encounter_grazing {m1 p1 m2 p2}
    (req : encounter_requires m1 p1 m2 p2 = true)
    (o1 : Organism species_t m1 p1) (o2 : Organism species_t m2 p2) :
  p1 = true -> is_plant m2 p2 = true ->
  get_vitality o1 <> 0 -> get_vitality o2 <> 0 ->
  encounter req o1 o2
  = (mkOrganism m1 p1 (get_species o1)
       (U64.add (get_vitality o1) (get_vitality o2)),
     mkOrganism m2 p2 (get_species o2) 0,
     None).
Proof.
  intros Hp Hplant Hv1 Hv2.
  rewrite (encounter_alive req o1 o2 Hv1 Hv2).
  apply is_plant_flags in Hplant. destruct Hplant as [Hm2 Hp2].
  clear req. subst p1 m2 p2.
  replace (Bool.eqb m1 false && Bool.eqb true false) with false
    by (destruct m1; reflexivity).
  simpl. unfold eat, eat_gain, eat_loss. simpl.
  destruct m1; reflexivity.
Qed.

(** X9.  Predation: a meat eater meets a strictly weaker living animal
    with which it does not breed.  The predator gains half the vitality
    of the prey, rounded down ([uint64_t] addition), the prey dies, and
    there is no offspring. *)
Theorem encounter_predation {m1 p1 m2 p2}
    (req : encounter_requires m1 p1 m2 p2 = true)
    (o1 : Organism species_t m1 p1) (o2 : Organism species_t m2 p2) :
  m1 = true -> is_plant m2 p2 = false ->
  0 < get_vitality o2 < get_vitality o1 ->
  Bool.eqb m1 m2 && Bool.eqb p1 p2
  && equal (get_species o1) (get_species o2) = false ->
  encounter req o1 o2
  = (mkOrganism m1 p1 (get_species o1)
       (U64.add (get_vitality o1) (get_vitality o2 / 2)),
     mkOrganism m2 p2 (get_species o2) 0,
     None).
Proof.
  intros Hm Hplant Hv Hkind.
  rewrite (encounter_alive req o1 o2) by lia.
  rewrite Hkind. clear req Hkind. subst m1.
  assert (Hgt : (get_vitality o1 >? get_vitality o2) = true)
    by (rewrite Z.gtb_ltb; apply Z.ltb_lt; lia).
  assert (Hlt : (get_vitality o2 >? get_vitality o1) = false)
    by (rewrite Z.gtb_ltb; apply Z.ltb_ge; lia).
  unfold eat, eat_gain, eat_loss. rewrite Hplant, Hgt, Hlt. simpl.
  unfold is_plant in Hplant.
  destruct p1, m2, p2; simpl in *; try discriminate; reflexivity.
Qed.

(** X10.  An organism that cannot eat plants and a plant ignore each
    other: [encounter] returns both unchanged and no offspring, whatever
    the vitalities and the species. *)
Theorem encounter_ignores_plant {m1 p1 m2 p2}
    (req : encounter_requires m1 p1 m2 p2 = true)
    (o1 : Organism species_t m1 p1) (o2 : Organism species_t m2 p2) :
  p1 = false -> is_plant m2 p2 = true ->
  encounter req o1 o2 = (o1, o2, None).
Proof.
  intros Hp Hplant.
  apply is_plant_flags in Hplant. destruct Hplant as [Hm2 Hp2].
  subst p1 m2 p2.
  destruct m1; [| discriminate req].
  unfold encounter, eat, eat_gain, eat_loss. simpl.
  destruct (is_dead o1 || is_dead o2); reflexivity.
Qed.

(** X11.  [encounter] does not depend on the order of its arguments:
    with the arguments exchanged it returns the same two organisms,
    exchanged, and an offspring of the same vitality if there is one. *)
Theorem encounter_swap {m1 p1 m2 p2}
    (req : encounter_requires m1 p1 m2 p2 = true)
    (req' : encounter_requires m2 p2 m1 p1 = true)
    (o1 : Organism species_t m1 p1) (o2 : Organism species_t m2 p2) :
  fst (encounter req' o2 o1)
  = (snd (fst (encounter req o1 o2)), fst (fst (encounter req o1 o2)))
  /\ option_map get_vitality (snd (encounter req' o2 o1))
     = option_map get_vitality (snd (encounter req o1 o2)).
Proof.
  unfold encounter.
  rewrite (Bool.orb_comm (is_dead o2)).
  destruct (is_dead o1 || is_dead o2); [split; reflexivity |].
  rewrite (flag_eqb_sym m2), (flag_eqb_sym p2).
  rewrite (equal_sym (get_species o2)).
  destruct (Bool.eqb m1 m2 && Bool.eqb p1 p2); [| split; reflexivity].
  destruct (equal (get_species o1) (get_species o2)); [| split; reflexivity].
  split; [reflexivity |].
  simpl. f_equal.
  rewrite !StdFacts.min_spec, !StdFacts.max_spec.
  rewrite (Z.min_comm (get_vitality o2)), (Z.max_comm (get_vitality o2)).
  reflexivity.
Qed.

(** X12.  [encounter] returns an offspring exactly when both organisms
    are alive, their diet flags coincide and their species are equal;
    the offspring is then [o1.breed(o2)]. *)
Theorem encounter_offspring_iff {m1 p1 m2 p2}
    (req : encounter_requires m1 p1 m2 p2 = true)
    (o1 : Organism species_t m1 p1) (o2 : Organism species_t m2 p2) child :
  snd (encounter req o1 o2) = Some child
  <-> get_vitality o1 <> 0 /\ get_vitality o2 <> 0
      /\ m1 = m2 /\ p1 = p2
      /\ equal (get_species o1) (get_species o2) = true
      /\ child = breed o1 o2.
Proof.
  unfold encounter, is_dead.
  destruct (Z.eqb_spec (get_vitality o1) 0) as [Hv1 | Hv1]; simpl.
  { split; [discriminate | intros [Hne _]; contradiction]. }
  destruct (Z.eqb_spec (get_vitality o2) 0) as [Hv2 | Hv2]; simpl.
  { split; [discriminate | intros [_ [Hne _]]; contradiction]. }
  destruct (Bool.eqb m1 m2) eqn:Hm; simpl.
  2:{ split; [discriminate |].
      intros (_ & _ & Hm' & _). apply Bool.eqb_false_iff in Hm. contradiction. }
  destruct (Bool.eqb p1 p2) eqn:Hp; simpl.
  2:{ split; [discriminate |].
      intros (_ & _ & _ & Hp' & _). apply Bool.eqb_false_iff in Hp. contradiction. }
  apply Bool.eqb_prop in Hm. apply Bool.eqb_prop in Hp.
  destruct (equal (get_species o1) (get_species o2)); simpl.
  - split.
    + intros [= <-]. repeat split; assumption.
    + intros (_ & _ & _ & _ & _ & ->). reflexivity.
  - split; [discriminate |].
    intros (_ & _ & _ & _ & Hs & _). discriminate Hs.
Qed.

Lemma encounter_offspring_inv {m1 p1 m2 p2}
    (req : encounter_requires m1 p1 m2 p2 = true)
    (o1 : Organism species_t m1 p1) (o2 : Organism species_t m2 p2) child :
  snd (encounter req o1 o2) = Some child ->
  get_vitality o1 <> 0 /\ get_vitality o2 <> 0 /\ child = breed o1 o2.
Proof.
  unfold encounter.
  destruct (is_dead o1 || is_dead o2) eqn:Hdead; simpl; [discriminate |].
  apply Bool.orb_false_iff in Hdead. destruct Hdead as [Hd1 Hd2].
  apply is_dead_false in Hd1. apply is_dead_false in Hd2.
  destruct (Bool.eqb m1 m2 && Bool.eqb p1 p2); simpl; [| discriminate].
  destruct (equal (get_species o1) (get_species o2)); simpl; [| discriminate].
  intros [= <-]. split; [exact Hd1 | split; [exact Hd2 | reflexivity]].
Qed.

(** X13.  An offspring is never dead: on well-formed organisms, the
    offspring returned by [encounter] has a nonzero vitality. *)
Theorem encounter_offspring_alive {m1 p1 m2 p2}
    (req : encounter_requires m1 p1 m2 p2 = true)
    (o1 : Organism species_t m1 p1) (o2 : Organism species_t m2 p2) child :
  well_formed o1 -> well_formed o2 ->
  snd (encounter req o1 o2) = Some child ->
  is_dead child = false.
Proof.
  intros H1 H2 Hchild.
  apply encounter_offspring_inv in Hchild.
  destruct Hchild as (Hv1 & Hv2 & ->).
  apply is_dead_false.
  rewrite (breed_vitality o1 o2 H1 H2).
  unfold well_formed, U64.in_range in H1, H2.
  pose proof (U64Facts.half_bounds
                (Z.max (get_vitality o1) (get_vitality o2)
                 - Z.min (get_vitality o1) (get_vitality o2))
                ltac:(lia)) as Hh.
  lia.
Qed.

Lemma eat_pair_vitality {m1 p1 m2 p2}
    (o1 : Organism species_t m1 p1) (o2 : Organism species_t m2 p2) :
  well_formed o1 -> well_formed o2 ->
  get_vitality o1 + get_vitality o2 < U64.modulus ->
  get_vitality (eat o1 o2) + get_vitality (eat o2 o1)
  <= get_vitality o1 + get_vitality o2.
Proof.
  unfold well_formed, U64.in_range. intros H1 H2 Hfit.
  pose proof (U64Facts.half_bounds (get_vitality o1) ltac:(lia)) as Hh1.
  pose proof (U64Facts.half_bounds (get_vitality o2) ltac:(lia)) as Hh2.
  unfold eat, eat_gain, eat_loss, is_plant, U64.div.
  destruct m1, p1, m2, p2; simpl;
    destruct (Z.gtb_spec (get_vitality o1) (get_vitality o2));
    destruct (Z.gtb_spec (get_vitality o2) (get_vitality o1));
    try destruct (Z.eqb_spec (get_vitality o1) (get_vitality o2));
    try destruct (Z.eqb_spec (get_vitality o2) (get_vitality o1));
    simpl; rewrite ?U64Facts.add_exact by lia; lia.
Qed.

(** X14.  [encounter] creates no vitality: when the two vitalities add up
    without overflow, the vitalities of the two organisms it returns add
    up to at most that sum. *)
Theorem encounter_no_vitality_created {m1 p1 m2 p2}
    (req : encounter_requires m1 p1 m2 p2 = true)
    (o1 : Organism species_t m1 p1) (o2 : Organism species_t m2 p2) :
  well_formed o1 -> well_formed o2 ->
  get_vitality o1 + get_vitality o2 < U64.modulus ->
  get_vitality (fst (fst (encounter req o1 o2)))
  + get_vitality (snd (fst (encounter req o1 o2)))
  <= get_vitality o1 + get_vitality o2.
Proof.
  intros H1 H2 Hfit.
  pose proof (eat_pair_vitality o1 o2 H1 H2 Hfit) as Hpair.
  unfold encounter.
  destruct (is_dead o1 || is_dead o2); simpl; [lia |].
  destruct (Bool.eqb m1 m2 && Bool.eqb p1 p2); simpl; [| exact Hpair].
  destruct (equal (get_species o1) (get_species o2)); simpl;
    [lia | exact Hpair].
Qed.

End EncounterFacts.

(** ** [operator+] and [encounter_series] *)

Section SeriesFacts.

Context {species_t : Type} `{equality_comparable species_t}.

Lemma plus_dead {m1 p1 m2 p2}
    (req : encounter_requires m1 p1 m2 p2 = true)
    (o1 : Organism species_t m1 p1) (o2 : Organism species_t m2 p2) :
  is_dead o1 || is_dead o2 = true -> plus req o1 o2 = o1.
Proof.
  intros Hd. unfold plus. rewrite (encounter_not_alive req o1 o2 Hd).
  reflexivity.
Qed.

(** X15.  A dead protagonist goes through a series unchanged, whatever
    the other organisms are. *)
Theorem encounter_series_dead_protagonist {m1 p1}
    (protagonist : Organism species_t m1 p1)
    (others : list (series_arg m1 p1)) :
  get_vitality protagonist = 0 ->
  encounter_series protagonist others = protagonist.
Proof.
  intros Hdead. induction others as [| a rest IH].
  - reflexivity.
  - simpl. rewrite plus_dead; [exact IH |].
    apply Bool.orb_true_iff. left. apply is_dead_true. exact Hdead.
Qed.

(** X16.  A series can be cut anywhere: running it over [xs ++ ys] is
    running it over [ys] from the result of running it over [xs]. *)
Theorem encounter_series_app {m1 p1}
    (protagonist : Organism species_t m1 p1)
    (xs ys : list (series_arg m1 p1)) :
  encounter_series protagonist (xs ++ ys)
  = encounter_series (encounter_series protagonist xs) ys.
Proof.
  revert protagonist. induction xs as [| a rest IH]; intros protagonist.
  - reflexivity.
  - simpl. apply IH.
Qed.

(** X17.  Dead organisms in the pack have no effect on a series: removing
    them does not change the result. *)
Theorem encounter_series_skips_dead {m1 p1}
    (protagonist : Organism species_t m1 p1)
    (others : list (series_arg m1 p1)) :
  encounter_series protagonist others
  = encounter_series protagonist
      (filter (fun a => negb (is_dead (arg_organism a))) others).
Proof.
  revert protagonist. induction others as [| a rest IH]; intros protagonist.
  - reflexivity.
  - simpl. destruct (is_dead (arg_organism a)) eqn:Hdead; simpl.
    + rewrite plus_dead by (rewrite Hdead; apply Bool.orb_true_r).
      apply IH.
    + apply IH.
Qed.

End SeriesFacts.

(** ** The further properties at concrete organisms *)

Module FurtherWitnesses.

Import Examples.

Lemma checked_well_formed {species_t m p} (o : Organism species_t m p) :
  (0 <=? get_vitality o) && (get_vitality o <? U64.modulus) = true ->
  well_formed o.
Proof.
  intros Hc. apply Bool.andb_true_iff in Hc. destruct Hc as [Hlo Hhi].
  apply Z.leb_le in Hlo. apply Z.ltb_lt in Hhi.
  unfold well_formed, U64.in_range. split; assumption.
Defined.

Lemma plant_eat_witness :
  is_plant false false = true
  /\ eat grass hare = mkOrganism false false "grass"%string 0
  /\ eat grass wolf = grass.
Proof.
  split; [reflexivity |]. split.
  - destruct (plant_eat grass hare eq_refl) as [_ Heat]. exact Heat.
  - destruct (plant_eat grass wolf eq_refl) as [_ Heat]. exact Heat.
Defined.

Lemma grazer_eat_animal_witness :
  is_plant true false = false
  /\ eat deer wolf = deer
  /\ eat hare wolf = mkOrganism false true "hare"%string 0.
Proof.
  split; [reflexivity |]. split.
  - exact (grazer_eat_animal deer wolf eq_refl eq_refl eq_refl).
  - exact (grazer_eat_animal hare wolf eq_refl eq_refl eq_refl).
Defined.

Lemma eat_gain_kills_other_witness :
  eat_gain wolf fox = Some (mkOrganism true false "wolf"%string 12)
  /\ eat fox wolf = mkOrganism true false "fox"%string 0.
Proof.
  split; [reflexivity |].
  exact (eat_gain_kills_other wolf fox _ eq_refl).
Defined.

Lemma eat_dead_or_not_weaker_witness :
  (well_formed wolf /\ well_formed fox
   /\ get_vitality wolf + get_vitality fox < U64.modulus)
  /\ (get_vitality (eat wolf fox) = 0
      \/ get_vitality wolf <= get_vitality (eat wolf fox)).
Proof.
  assert (Hw : well_formed wolf) by (apply checked_well_formed; reflexivity).
  assert (Hf : well_formed fox) by (apply checked_well_formed; reflexivity).
  assert (Hfit : get_vitality wolf + get_vitality fox < U64.modulus)
    by reflexivity.
  split; [split; [exact Hw | split; [exact Hf | exact Hfit]] |].
  exact (eat_dead_or_not_weaker wolf fox Hw Hf Hfit).
Defined.

Lemma breed_vitality_symmetric_witness :
  (well_formed wolf /\ get_vitality lynx = get_vitality wolf)
  /\ get_vitality (breed wolf lynx) = 10.
Proof.
  assert (Hw : well_formed wolf) by (apply checked_well_formed; reflexivity).
  split; [split; [exact Hw | reflexivity] |].
  destruct (breed_vitality_symmetric wolf lynx) as [_ Hfix].
  exact (Hfix Hw eq_refl).
Defined.

Lemma encounter_grazing_witness :
  (is_plant false false = true
   /\ get_vitality bear <> 0 /\ get_vitality grass <> 0)
  /\ encounter omnivore_plant_ok bear grass
     = (mkOrganism true true "bear"%string 15,
        mkOrganism false false "grass"%string 0,
        None).
Proof.
  split; [split; [reflexivity | split; discriminate] |].
  apply (encounter_grazing omnivore_plant_ok bear grass);
    (reflexivity || discriminate).
Defined.

Lemma encounter_predation_witness :
  (is_plant false true = false
   /\ 0 < get_vitality hare < get_vitality wolf)
  /\ encounter carnivore_herbivore_ok wolf hare
     = (mkOrganism true false "wolf"%string 12,
        mkOrganism false true "hare"%string 0,
        None).
Proof.
  split; [split; [reflexivity | split; reflexivity] |].
  apply (encounter_predation carnivore_herbivore_ok wolf hare);
    try reflexivity.
  split; reflexivity.
Defined.

Lemma encounter_ignores_plant_witness :
  is_plant false false = true
  /\ encounter carnivore_plant_ok wolf grass = (wolf, grass, None).
Proof.
  split; [reflexivity |].
  apply (encounter_ignores_plant carnivore_plant_ok wolf grass); reflexivity.
Defined.

Lemma encounter_swap_witness :
  fst (encounter herbivore_carnivore_ok hare wolf)
  = (mkOrganism false true "hare"%string 0,
     mkOrganism true false "wolf"%string 12).
Proof.
  destruct (encounter_swap carnivore_herbivore_ok herbivore_carnivore_ok
              wolf hare) as [Hpair _].
  exact Hpair.
Defined.

Lemma encounter_offspring_iff_witness :
  snd (encounter carnivores_ok wolf old_wolf) = Some (breed wolf old_wolf)
  /\ snd (encounter carnivores_ok wolf fox) <> Some (breed wolf fox).
Proof.
  split.
  - apply (encounter_offspring_iff carnivores_ok wolf old_wolf).
    repeat split; discriminate.
  - intros Hsome.
    apply (encounter_offspring_iff carnivores_ok wolf fox) in Hsome.
    destruct Hsome as (_ & _ & _ & _ & Hs & _). discriminate Hs.
Defined.

Lemma encounter_offspring_alive_witness :
  (well_formed wolf /\ well_formed old_wolf
   /\ snd (encounter carnivores_ok wolf old_wolf)
      = Some (mkOrganism true false "wolf"%string 7))
  /\ is_dead (mkOrganism true false "wolf"%string 7) = false.
Proof.
  assert (Hw : well_formed wolf) by (apply checked_well_formed; reflexivity).
  assert (Ho : well_formed old_wolf) by (apply checked_well_formed; reflexivity).
  split; [split; [exact Hw | split; [exact Ho | reflexivity]] |].
  exact (encounter_offspring_alive carnivores_ok wolf old_wolf _ Hw Ho eq_refl).
Defined.

Lemma encounter_no_vitality_created_witness :
  (well_formed wolf /\ well_formed hare
   /\ get_vitality wolf + get_vitality hare < U64.modulus)
  /\ get_vitality (fst (fst (encounter carnivore_herbivore_ok wolf hare)))
     + get_vitality (snd (fst (encounter carnivore_herbivore_ok wolf hare)))
     <= 15.
Proof.
  assert (Hw : well_formed wolf) by (apply checked_well_formed; reflexivity).
  assert (Hh : well_formed hare) by (apply checked_well_formed; reflexivity).
  assert (Hfit : get_vitality wolf + get_vitality hare < U64.modulus)
    by reflexivity.
  split; [split; [exact Hw | split; [exact Hh | exact Hfit]] |].
  exact (encounter_no_vitality_created carnivore_herbivore_ok wolf hare
           Hw Hh Hfit).
Defined.

Lemma encounter_series_dead_protagonist_witness :
  get_vitality dead_wolf = 0
  /\ encounter_series dead_wolf pack = dead_wolf.
Proof.
  split; [reflexivity |].
  apply (encounter_series_dead_protagonist dead_wolf pack). reflexivity.
Defined.

Lemma encounter_series_skips_dead_witness :
  encounter_series wolf pack_with_dead = encounter_series wolf pack.
Proof.
  exact (encounter_series_skips_dead wolf pack_with_dead).
Defined.

End FurtherWitnesses.
